(** * CPU multiplier overclocking tool: a shallow embedding of
      [Project/zx.c] and [Project/overclock.c]

    Both files define [set_cpu_multiplier], which encodes a core index and a
    clock multiplier into an address/value pair and commits it through the
    index port 0xCF8 and the data port 0xCFC after asking the kernel for
    I/O privilege with [iopl(3)].  [zx.c] adds the command-line [main].

    The C code is effectful: it calls [iopl], [outl], [perror], [printf],
    [MessageBoxA] and [exit].  Those calls are recorded, in program order, in
    a trace of events; a computation is a function from the kernel and the
    trace so far to an outcome (normal return or process exit) and the
    extended trace. *)

From Stdlib Require Import ZArith List String Ascii Bool Lia.
Import ListNotations.
Local Open Scope string_scope.
Local Open Scope Z_scope.
Local Open Scope list_scope.

(** ** C integer types (x86-64 Linux, LP64)

    [int] is 32 bits, [unsigned long] 64 bits, [unsigned int] 32 bits and
    [unsigned short] 16 bits.  Integers are mathematical [Z]; a conversion
    to a C type writes the wrap-around out. *)

Definition wrap_signed (w x : Z) : Z := (x + 2 ^ (w - 1)) mod 2 ^ w - 2 ^ (w - 1).
Definition wrap_unsigned (w x : Z) : Z := x mod 2 ^ w.

Definition to_int (x : Z) : Z := wrap_signed 32 x.
Definition to_uint (x : Z) : Z := wrap_unsigned 32 x.
Definition to_ulong (x : Z) : Z := wrap_unsigned 64 x.
Definition to_ushort (x : Z) : Z := wrap_unsigned 16 x.

Definition LONG_MAX : Z := 2 ^ 63 - 1.
Definition LONG_MIN : Z := - 2 ^ 63.

(** [a + b] on two [int]s.  Signed overflow is undefined in C; the model
    takes the two's complement result the x86 [add] gives. *)
Definition int_add (a b : Z) : Z := to_int (a + b).

(** ** Observable events *)

(** The variadic arguments of a [printf] call.  A [char *] argument may be
    the null pointer ([argv[argc]] is), hence the [option]. *)
Inductive printf_arg : Type :=
| ArgInt (n : Z)
| ArgStr (s : option string).

Inductive event : Type :=
| Printf (fmt : string) (args : list printf_arg)
| Perror (s : string)
| Iopl (level ret : Z)
| Outl (value port : Z)
| MessageBoxA (text caption : string).

(** The kernel decides whether [iopl] succeeds (0) or fails (-1).  Its
    answer may depend on everything the process has done so far. *)
Record kernel : Type := { sys_iopl : list event -> Z -> Z }.

(** ** The monad of C computations *)

Inductive outcome (A : Type) : Type :=
| Returned (a : A)
| Exited (status : Z).
Arguments Returned {A} a.
Arguments Exited {A} status.

Definition M (A : Type) : Type := kernel -> list event -> outcome A * list event.

Definition ret {A} (a : A) : M A := fun _ tr => (Returned a, tr).

Definition bind {A B} (c : M A) (k : A -> M B) : M B :=
  fun os tr =>
    match c os tr with
    | (Returned a, tr') => k a os tr'
    | (Exited s, tr') => (Exited s, tr')
    end.

Declare Scope c_scope.
Delimit Scope c_scope with C.
Notation "x <- c ;; k" := (bind c (fun x => k))
  (at level 61, c at next level, right associativity) : c_scope.
Notation "c ;; k" := (bind c (fun _ => k))
  (at level 61, right associativity) : c_scope.
Local Open Scope c_scope.

Definition emit (e : event) : M unit := fun _ tr => (Returned tt, tr ++ [e]).

(** [exit(status)] from <stdlib.h>: the process ends, nothing after it runs. *)
Definition exit {A} (status : Z) : M A := fun _ tr => (Exited status, tr).

(** [EXIT_FAILURE] from <stdlib.h> is 1 both in glibc and in the Windows CRT. *)
Definition EXIT_FAILURE : Z := 1.

(** [int iopl(int level)] from <sys/io.h>. *)
Definition iopl (level : Z) : M Z :=
  fun os tr => let r := sys_iopl os tr level in (Returned r, tr ++ [Iopl level r]).

(** [void outl(unsigned int value, unsigned short port)] from <sys/io.h>:
    the arguments are converted to the parameter types. *)
Definition outl (value port : Z) : M unit :=
  emit (Outl (to_uint value) (to_ushort port)).

Definition perror (s : string) : M unit := emit (Perror s).
Definition printf (fmt : string) (args : list printf_arg) : M unit :=
  emit (Printf fmt args).

(** The status the process ends with when [main] finishes with outcome [o]:
    returning [v] from [main] is [exit(v)]. *)
Definition exit_status (o : outcome Z) : Z :=
  match o with
  | Returned v => v
  | Exited s => s
  end.

(** The port writes of a trace, as (value, port) pairs in program order. *)
Fixpoint port_writes (tr : list event) : list (Z * Z) :=
  match tr with
  | [] => []
  | Outl v p :: tr' => (v, p) :: port_writes tr'
  | _ :: tr' => port_writes tr'
  end.

(** The privilege requests of a trace. *)
Fixpoint iopl_calls (tr : list event) : list Z :=
  match tr with
  | [] => []
  | Iopl l _ :: tr' => l :: iopl_calls tr'
  | _ :: tr' => iopl_calls tr'
  end.

(** ** [atoi] from <stdlib.h>

    glibc's [atoi(s)] is [(int) strtol(s, NULL, 10)]: skip white space, read
    an optional sign, read decimal digits as long as there are any, clamp
    to the range of [long], convert to [int].  No digits give 0. *)

Definition newline : string := String "010"%char EmptyString.

Definition isspace (c : ascii) : bool :=
  let n := Z.of_nat (nat_of_ascii c) in
  (n =? 32) || ((9 <=? n) && (n <=? 13)).

Definition isdigit (c : ascii) : bool :=
  let n := Z.of_nat (nat_of_ascii c) in
  (48 <=? n) && (n <=? 57).

Definition digit_value (c : ascii) : Z := Z.of_nat (nat_of_ascii c) - 48.

Fixpoint skip_space (s : string) : string :=
  match s with
  | String c r => if isspace c then skip_space r else s
  | EmptyString => s
  end.

Fixpoint digits (acc : Z) (s : string) : Z :=
  match s with
  | String c r => if isdigit c then digits (10 * acc + digit_value c) r else acc
  | EmptyString => acc
  end.

Definition clamp_long (x : Z) : Z :=
  if x >? LONG_MAX then LONG_MAX else if x <? LONG_MIN then LONG_MIN else x.

(** The sign and the rest of the string after an optional ['+'] or ['-']. *)
Definition read_sign (s : string) : bool * string :=
  match s with
  | String "-"%char r => (true, r)
  | String "+"%char r => (false, r)
  | _ => (false, s)
  end.

Definition strtol10 (s : string) : Z :=
  let '(neg, r) := read_sign (skip_space s) in
  let v := digits 0 r in
  clamp_long (if neg then - v else v).

Definition atoi (s : string) : Z := to_int (strtol10 s).

(** A string that does not start, after white space and an optional sign,
    with a decimal digit: ["abc"], ["-"], ["x12"], the empty string. *)
Definition non_numeric (s : string) : bool :=
  match snd (read_sign (skip_space s)) with
  | String c _ => negb (isdigit c)
  | EmptyString => true
  end.

(** A string without any decimal digit. *)
Fixpoint no_digit (s : string) : bool :=
  match s with
  | String c r => negb (isdigit c) && no_digit r
  | EmptyString => true
  end.

(** ** [Project/zx.c] *)

Module Zx.

Definition MSR_OC_BASE : Z := 0x199.
Definition PORT_PROTECT : Z := 0xCF8.
Definition PORT_DATA : Z := 0xCFC.

(** [unsigned long msr = MSR_OC_BASE + core;] *)
Definition msr (core : Z) : Z := to_ulong (int_add MSR_OC_BASE core).

(** [unsigned long value = (multiplier & 0xFF) | 0x10000;] *)
Definition value (multiplier : Z) : Z :=
  to_ulong (Z.lor (Z.land multiplier 0xFF) 0x10000).

Definition set_cpu_multiplier (core multiplier : Z) : M unit :=
  let msr := msr core in
  let value := value multiplier in
  r <- iopl 3 ;;
  (if r <? 0 then perror "iopl" ;; exit 1 else ret tt) ;;
  outl msr PORT_PROTECT ;;
  outl value PORT_DATA.

(** [argc] is the length of [argv]; [argv[argc]] is the null pointer. *)
Definition main (argv : list string) : M Z :=
  let argc := Z.of_nat (List.length argv) in
  if negb (argc =? 3) then
    printf ("Usage: %s <core> <multiplier>" ++ newline)%string [ArgStr (nth_error argv 0)] ;;
    ret 1
  else
    let core := atoi (nth 1 argv EmptyString) in
    let multi := atoi (nth 2 argv EmptyString) in
    if (core <? 0) || (core >? 15) || (multi <? 8) || (multi >? 255) then
      printf ("Invalid parameters!" ++ newline)%string [] ;;
      ret 1
    else
      printf ("Setting core %d to %dx multiplier" ++ newline)%string [ArgInt core; ArgInt multi] ;;
      set_cpu_multiplier core multi ;;
      ret 0.

End Zx.

(** ** [Project/overclock.c] *)

(** The file has two bodies, chosen at build time by [#ifdef _WIN32]. *)
Inductive target : Type := Win32 | Linux.

Module Overclock.

Definition MSR_OC_BASE : Z := 0x199.
Definition PORT_PROTECT : Z := 0xCF8.
Definition PORT_DATA : Z := 0xCFC.

Definition msr (core : Z) : Z := to_ulong (int_add MSR_OC_BASE core).

Definition value (multiplier : Z) : Z :=
  to_ulong (Z.lor (Z.land multiplier 0xFF) 0x10000).

Definition set_cpu_multiplier (t : target) (core multiplier : Z) : M unit :=
  match t with
  | Win32 =>
      emit (MessageBoxA "Direct I/O not supported in user mode." "Error") ;;
      exit EXIT_FAILURE
  | Linux =>
      let msr := msr core in
      let value := value multiplier in
      r <- iopl 3 ;;
      (if r <? 0 then perror "iopl" ;; exit EXIT_FAILURE else ret tt) ;;
      outl msr PORT_PROTECT ;;
      outl value PORT_DATA
  end.

End Overclock.

(** ** Vocabulary of the statements *)

(** Two kernels for concrete runs: one grants every request, one refuses. *)
Definition kernel_root : kernel := {| sys_iopl := fun _ _ => 0 |}.
Definition kernel_user : kernel := {| sys_iopl := fun _ _ => -1 |}.

(** The events one call of the engine appends, by the kernel's answer. *)
Definition engine_events (r msr value : Z) : list event :=
  if r <? 0 then [Iopl 3 r; Perror "iopl"]
  else [Iopl 3 r; Outl (to_uint msr) 0xCF8; Outl (to_uint value) 0xCFC].

Definition engine_outcome (r : Z) : outcome unit :=
  if r <? 0 then Exited 1 else Returned tt.

(** The engines under one name:
    [zx.c] has one body of [set_cpu_multiplier], [overclock.c] one per build
    target.  [call] picks the body, so that a statement can range over all
    three. *)
Inductive engine : Type :=
| ZxEngine
| OverclockEngine (t : target).

Definition call (e : engine) : Z -> Z -> M unit :=
  match e with
  | ZxEngine => Zx.set_cpu_multiplier
  | OverclockEngine t => Overclock.set_cpu_multiplier t
  end.

Definition msr_of (e : engine) : Z -> Z :=
  match e with
  | ZxEngine => Zx.msr
  | OverclockEngine _ => Overclock.msr
  end.

Definition value_of (e : engine) : Z -> Z :=
  match e with
  | ZxEngine => Zx.value
  | OverclockEngine _ => Overclock.value
  end.

(** [evs] holds exactly two port writes: [a] to the index port 0xCF8 at
    position [i], and [v] to the data port 0xCFC at a later position [j]. *)
Definition index_then_data (a v : Z) (evs : list event) : Prop :=
  exists i j : nat,
    nth_error evs i = Some (Outl a 0xCF8) /\
    nth_error evs j = Some (Outl v 0xCFC) /\
    (i < j)%nat /\
    forall (k : nat) (x p : Z), nth_error evs k = Some (Outl x p) -> k = i \/ k = j.


(** The outcome of [main] after the engine's: [return 0] once it returned. *)
Definition main_after_engine (r : outcome unit * list event) : outcome Z * list event :=
  match r with
  | (Returned _, tr') => (Returned 0, tr')
  | (Exited s, tr') => (Exited s, tr')
  end.

Definition invalid_line : event := Printf ("Invalid parameters!" ++ newline)%string [].

Definition confirmation_line (core multi : Z) : event :=
  Printf ("Setting core %d to %dx multiplier" ++ newline)%string
         [ArgInt core; ArgInt multi].

Definition usage_line (argv0 : option string) : event :=
  Printf ("Usage: %s <core> <multiplier>" ++ newline)%string [ArgStr argv0].

(** Decimal numerals, to speak about what [main] parses: the string of the
    digits [ds] (most significant first) and the number it denotes. *)
Definition digit_char (d : Z) : ascii := ascii_of_nat (Z.to_nat (48 + d)).

Fixpoint numeral (ds : list Z) : string :=
  match ds with
  | [] => EmptyString
  | d :: ds' => String (digit_char d) (numeral ds')
  end.

Definition decimal_value (ds : list Z) : Z :=
  fold_left (fun acc d => 10 * acc + d) ds 0.

(** A non-empty list of decimal digits. *)
Definition is_digits (ds : list Z) : Prop :=
  ds <> [] /\ Forall (fun d => 0 <= d <= 9) ds.

Fixpoint all_space (s : string) : bool :=
  match s with
  | String c r => isspace c && all_space r
  | EmptyString => true
  end.

(** The string is empty or starts with a character that is no digit. *)
Definition stops_digits (r : string) : bool :=
  match r with
  | String c _ => negb (isdigit c)
  | EmptyString => true
  end.

Inductive sign : Type := NoSign | PlusSign | MinusSign.

Definition sign_string (sg : sign) : string :=
  match sg with
  | NoSign => EmptyString
  | PlusSign => "+"
  | MinusSign => "-"
  end.

Definition signed (sg : sign) (v : Z) : Z :=
  match sg with
  | MinusSign => - v
  | _ => v
  end.

(** A command-line argument as [atoi] reads it: white space, an optional
    sign, digits, and a rest that does not go on with a digit. *)
Definition argument (ws : string) (sg : sign) (ds : list Z) (r : string) : string :=
  (ws ++ sign_string sg ++ numeral ds ++ r)%string.

(** C5 read over the command line: whenever the two arguments are decimal
    numerals (with an optional sign) and the core or the multiplier they
    denote is out of range, [main] ends with a nonzero status and the trace
    gains no [iopl] request and no port write. *)
Definition cli_rejects_out_of_range_arguments : Prop :=
  forall (prog : string) (sg1 sg2 : sign) (ds1 ds2 : list Z)
         (os : kernel) (tr : list event),
    is_digits ds1 -> is_digits ds2 ->
    let c := signed sg1 (decimal_value ds1) in
    let m := signed sg2 (decimal_value ds2) in
    let run := Zx.main [prog; argument EmptyString sg1 ds1 EmptyString;
                        argument EmptyString sg2 ds2 EmptyString] os tr in
    c < 0 \/ 15 < c \/ m < 8 \/ 255 < m ->
    exit_status (fst run) <> 0 /\
    iopl_calls (snd run) = iopl_calls tr /\
    port_writes (snd run) = port_writes tr.

(** ** Concrete runs *)

Example zx_root_run :
  Zx.set_cpu_multiplier 15 255 kernel_root [] =
  (Returned tt, [Iopl 3 0; Outl 0x1A8 0xCF8; Outl 0x100FF 0xCFC]).
Proof. reflexivity. Qed.

Example zx_user_run :
  Zx.set_cpu_multiplier 15 255 kernel_user [] =
  (Exited 1, [Iopl 3 (-1); Perror "iopl"]).
Proof. reflexivity. Qed.

(** Out-of-range arguments wrap: core -410 gives the [int] -1, which [outl]
    receives as 0xFFFFFFFF; multiplier -1 keeps its low byte 0xFF. *)
Example zx_negative_run :
  Zx.set_cpu_multiplier (-410) (-1) kernel_root [] =
  (Returned tt, [Iopl 3 0; Outl 0xFFFFFFFF 0xCF8; Outl 0x100FF 0xCFC]).
Proof. reflexivity. Qed.

Example atoi_examples :
  atoi "15" = 15 /\ atoi "  -7x" = -7 /\ atoi "abc" = 0 /\ atoi "12abc" = 12 /\
  atoi "4294967296" = 0 /\ atoi "99999999999999999999" = -1.
Proof. repeat split; vm_compute; reflexivity. Qed.

Example main_examples :
  Zx.main ["zx"; "0"; "8"] kernel_root [] =
    (Returned 0,
     [Printf ("Setting core %d to %dx multiplier" ++ newline)%string [ArgInt 0; ArgInt 8];
      Iopl 3 0; Outl 0x199 0xCF8; Outl 0x10008 0xCFC]) /\
  Zx.main ["zx"; "16"; "8"] kernel_root [] =
    (Returned 1, [Printf ("Invalid parameters!" ++ newline)%string []]) /\
  Zx.main ["zx"] kernel_root [] =
    (Returned 1, [Printf ("Usage: %s <core> <multiplier>" ++ newline)%string [ArgStr (Some "zx")]]).
Proof. repeat split; vm_compute; reflexivity. Qed.

(** ** Arithmetic of the conversions *)

Lemma to_int_small x : - 2 ^ 31 <= x < 2 ^ 31 -> to_int x = x.
Proof.
  intros H. unfold to_int, wrap_signed.
  change (2 ^ (32 - 1)) with (2 ^ 31). change (2 ^ 32) with (2 * 2 ^ 31).
  rewrite Z.mod_small; lia.
Qed.

Lemma to_uint_small x : 0 <= x < 2 ^ 32 -> to_uint x = x.
Proof. intros H. unfold to_uint, wrap_unsigned. now apply Z.mod_small. Qed.

Lemma to_ulong_small x : 0 <= x < 2 ^ 64 -> to_ulong x = x.
Proof. intros H. unfold to_ulong, wrap_unsigned. now apply Z.mod_small. Qed.

Lemma land_byte m : Z.land m 0xFF = m mod 256.
Proof. change 0xFF with (Z.ones 8). now rewrite Z.land_ones. Qed.

Lemma land_bit16 x : 0 <= x < 2 ^ 16 -> Z.land x 0x10000 = 0.
Proof.
  intros H. apply Z.bits_inj'. intros n Hn.
  rewrite Z.land_spec, Z.bits_0.
  change 0x10000 with (2 ^ 16). rewrite Z.pow2_bits_eqb by lia.
  destruct (Z.eqb_spec 16 n) as [<- | Hne].
  - rewrite <- (Z.mod_small x (2 ^ 16)) by exact H.
    rewrite Z.mod_pow2_bits_high by lia. reflexivity.
  - apply andb_false_r.
Qed.

(** The encoded value is the low byte of the multiplier plus the flag. *)
Lemma encode_sum m : Z.lor (Z.land m 0xFF) 0x10000 = 0x10000 + m mod 256.
Proof.
  rewrite land_byte.
  pose proof (Z.mod_pos_bound m 256 ltac:(lia)) as Hb.
  pose proof (Z.add_lor_land (m mod 256) 0x10000) as Hs.
  rewrite land_bit16 in Hs by lia. lia.
Qed.

Lemma zx_value_sum m : Zx.value m = 0x10000 + m mod 256.
Proof.
  unfold Zx.value. rewrite encode_sum.
  pose proof (Z.mod_pos_bound m 256 ltac:(lia)).
  apply to_ulong_small. lia.
Qed.

Lemma overclock_value_sum m : Overclock.value m = 0x10000 + m mod 256.
Proof.
  unfold Overclock.value. rewrite encode_sum.
  pose proof (Z.mod_pos_bound m 256 ltac:(lia)).
  apply to_ulong_small. lia.
Qed.

Lemma zx_msr_small core : - 0x199 <= core < 2 ^ 31 - 0x199 -> Zx.msr core = 0x199 + core.
Proof.
  intros H. unfold Zx.msr, int_add, Zx.MSR_OC_BASE.
  rewrite to_int_small by lia. apply to_ulong_small. lia.
Qed.

Lemma overclock_msr_small core :
  - 0x199 <= core < 2 ^ 31 - 0x199 -> Overclock.msr core = 0x199 + core.
Proof.
  intros H. unfold Overclock.msr, int_add, Overclock.MSR_OC_BASE.
  rewrite to_int_small by lia. apply to_ulong_small. lia.
Qed.

(** ** Traces *)

Lemma port_writes_app tr1 tr2 :
  port_writes (tr1 ++ tr2) = port_writes tr1 ++ port_writes tr2.
Proof.
  induction tr1 as [| e tr1 IH]; [reflexivity |].
  destruct e; simpl; rewrite IH; reflexivity.
Qed.

Lemma iopl_calls_app tr1 tr2 :
  iopl_calls (tr1 ++ tr2) = iopl_calls tr1 ++ iopl_calls tr2.
Proof.
  induction tr1 as [| e tr1 IH]; [reflexivity |].
  destruct e; simpl; rewrite IH; reflexivity.
Qed.

Create Rewrite HintDb trace.
#[global] Hint Rewrite port_writes_app iopl_calls_app @app_nil_r : trace.

(** Unfold the monad down to pairs and lists. *)
Ltac unfold_monad :=
  unfold bind, iopl, outl, perror, printf, emit, exit, ret; cbv zeta.

(** Split a closed-form run on the sign of the kernel's answer. *)
Ltac by_answer os tr :=
  unfold engine_outcome, engine_events; destruct (sys_iopl os tr 3 <? 0).

(** ** The engine, run in closed form *)

Section Runs.

Variables core multiplier : Z.
Variable os : kernel.
Variable tr : list event.

(** Every run of the engine of [zx.c]. *)
Lemma zx_run :
  Zx.set_cpu_multiplier core multiplier os tr =
  (engine_outcome (sys_iopl os tr 3),
   tr ++ engine_events (sys_iopl os tr 3) (Zx.msr core) (Zx.value multiplier)).
Proof.
  unfold Zx.set_cpu_multiplier. unfold_monad.
  by_answer os tr; cbn; repeat rewrite <- app_assoc; reflexivity.
Qed.

(** Every run of the Linux body of [overclock.c]. *)
Lemma overclock_linux_run :
  Overclock.set_cpu_multiplier Linux core multiplier os tr =
  (engine_outcome (sys_iopl os tr 3),
   tr ++ engine_events (sys_iopl os tr 3) (Overclock.msr core)
           (Overclock.value multiplier)).
Proof.
  unfold Overclock.set_cpu_multiplier. unfold_monad.
  by_answer os tr; cbn; repeat rewrite <- app_assoc; reflexivity.
Qed.

(** Every run of the Windows body of [overclock.c]. *)
Lemma overclock_win32_run :
  Overclock.set_cpu_multiplier Win32 core multiplier os tr =
  (Exited 1, tr ++ [MessageBoxA "Direct I/O not supported in user mode." "Error"]).
Proof. reflexivity. Qed.

(** A call that returns made its kernel request succeed. *)
Lemma call_returned e tr' :
  call e core multiplier os tr = (Returned tt, tr') ->
  e <> OverclockEngine Win32 /\
  (sys_iopl os tr 3 <? 0) = false /\
  tr' = tr ++ [Iopl 3 (sys_iopl os tr 3);
               Outl (to_uint (msr_of e core)) 0xCF8;
               Outl (to_uint (value_of e multiplier)) 0xCFC].
Proof.
  destruct e as [| [|]]; cbn [call msr_of value_of].
  - rewrite zx_run. by_answer os tr; intros H; inversion H; subst.
    repeat split; congruence.
  - rewrite overclock_win32_run. discriminate.
  - rewrite overclock_linux_run. by_answer os tr; intros H; inversion H; subst.
    repeat split; congruence.
Qed.

(** A call that ends the process ended it with status 1 and has written to
    no port. *)
Lemma no_partial_write_on_exit e status tr' :
  call e core multiplier os tr = (Exited status, tr') ->
  status = 1 /\ port_writes tr' = port_writes tr.
Proof.
  destruct e as [| [|]]; cbn [call].
  - rewrite zx_run. by_answer os tr; intros H; inversion H; subst.
    autorewrite with trace. split; reflexivity.
  - rewrite overclock_win32_run. intros H; inversion H; subst.
    autorewrite with trace. split; reflexivity.
  - rewrite overclock_linux_run. by_answer os tr; intros H; inversion H; subst.
    autorewrite with trace. split; reflexivity.
Qed.

End Runs.

(** ** The command line *)

(** [main] on three arguments, by the range test. *)
Lemma main_three_args prog a1 a2 os tr :
  Zx.main [prog; a1; a2] os tr =
  if (atoi a1 <? 0) || (atoi a1 >? 15) || (atoi a2 <? 8) || (atoi a2 >? 255)
  then (Returned 1, tr ++ [invalid_line])
  else main_after_engine
         (Zx.set_cpu_multiplier (atoi a1) (atoi a2) os
            (tr ++ [confirmation_line (atoi a1) (atoi a2)])).
Proof.
  unfold Zx.main. cbn [List.length Z.of_nat Pos.of_succ_nat Pos.succ Z.eqb Pos.eqb negb nth].
  destruct ((atoi a1 <? 0) || (atoi a1 >? 15) || (atoi a2 <? 8) || (atoi a2 >? 255)).
  - reflexivity.
  - unfold_monad. unfold main_after_engine, confirmation_line.
    destruct (Zx.set_cpu_multiplier (atoi a1) (atoi a2) os _) as [[[] | s] tr'];
      reflexivity.
Qed.

(** ** Parsing the arguments *)

Lemma atoi_non_numeric s : non_numeric s = true -> atoi s = 0.
Proof.
  unfold non_numeric, atoi, strtol10.
  destruct (read_sign (skip_space s)) as [neg r]. cbn [snd].
  assert (Hd : match r with
               | String c _ => negb (isdigit c)
               | EmptyString => true
               end = true -> digits 0 r = 0).
  { destruct r as [| c r]; [reflexivity |]. cbn [digits].
    destruct (isdigit c); [discriminate | reflexivity]. }
  intros H. rewrite (Hd H). destruct neg; reflexivity.
Qed.

Lemma no_digit_skip_space s : no_digit s = true -> no_digit (skip_space s) = true.
Proof.
  induction s as [| c r IH]; [reflexivity |].
  cbn [skip_space]. destruct (isspace c); [| exact (fun H => H)].
  cbn [no_digit]. intros H. apply andb_true_iff in H. apply IH, H.
Qed.

Lemma no_digit_read_sign s : no_digit s = true -> no_digit (snd (read_sign s)) = true.
Proof.
  destruct s as [| c r]; [reflexivity |].
  intros H. assert (Hr : no_digit r = true)
    by (cbn [no_digit] in H; apply andb_true_iff in H; apply H).
  unfold read_sign.
  destruct c as [[] [] [] [] [] [] [] []]; cbn [snd]; first [exact Hr | exact H].
Qed.

(** A string with no digit at all is non-numeric. *)
Lemma no_digit_non_numeric s : no_digit s = true -> non_numeric s = true.
Proof.
  intros H. apply no_digit_skip_space, no_digit_read_sign in H.
  unfold non_numeric. destruct (snd (read_sign (skip_space s))) as [| c r];
    [reflexivity |].
  cbn [no_digit] in H. apply andb_true_iff in H. apply H.
Qed.

(** ** The claims *)

(** C1.  For a core in [0,15] and a multiplier in [8,255] the register
    address is [0x199 + core] and the encoded value is
    [(multiplier & 0xFF) | 0x10000], in both files; a call whose privilege
    request is granted writes the address to port 0xCF8 and then the value
    to port 0xCFC, and nothing else. *)
Theorem C1_address_and_value (core multiplier : Z) (os : kernel) (tr : list event) :
  0 <= core <= 15 ->
  8 <= multiplier <= 255 ->
  0 <= sys_iopl os tr 3 ->
  Zx.msr core = 0x199 + core /\
  Zx.value multiplier = Z.lor (Z.land multiplier 0xFF) 0x10000 /\
  Overclock.msr core = 0x199 + core /\
  Overclock.value multiplier = Z.lor (Z.land multiplier 0xFF) 0x10000 /\
  Zx.set_cpu_multiplier core multiplier os tr =
    (Returned tt,
     tr ++ [Iopl 3 (sys_iopl os tr 3);
            Outl (0x199 + core) 0xCF8;
            Outl (Z.lor (Z.land multiplier 0xFF) 0x10000) 0xCFC]) /\
  Overclock.set_cpu_multiplier Linux core multiplier os tr =
    (Returned tt,
     tr ++ [Iopl 3 (sys_iopl os tr 3);
            Outl (0x199 + core) 0xCF8;
            Outl (Z.lor (Z.land multiplier 0xFF) 0x10000) 0xCFC]).
Proof.
  intros Hc Hm Hr.
  assert (Ha : Zx.msr core = 0x199 + core) by (apply zx_msr_small; lia).
  assert (Ha' : Overclock.msr core = 0x199 + core) by (apply overclock_msr_small; lia).
  assert (Hv : Zx.value multiplier = Z.lor (Z.land multiplier 0xFF) 0x10000)
    by (rewrite zx_value_sum, encode_sum; reflexivity).
  assert (Hv' : Overclock.value multiplier = Z.lor (Z.land multiplier 0xFF) 0x10000)
    by (rewrite overclock_value_sum, encode_sum; reflexivity).
  assert (Hlt : (sys_iopl os tr 3 <? 0) = false) by (apply Z.ltb_ge; exact Hr).
  assert (Hu : to_uint (0x199 + core) = 0x199 + core) by (apply to_uint_small; lia).
  assert (Hw : to_uint (Z.lor (Z.land multiplier 0xFF) 0x10000)
               = Z.lor (Z.land multiplier 0xFF) 0x10000).
  { rewrite encode_sum. pose proof (Z.mod_pos_bound multiplier 256 ltac:(lia)).
    apply to_uint_small. lia. }
  repeat split; try assumption.
  - rewrite zx_run. unfold engine_outcome, engine_events.
    rewrite Hlt, Ha, Hv, Hu, Hw. reflexivity.
  - rewrite overclock_linux_run. unfold engine_outcome, engine_events.
    rewrite Hlt, Ha', Hv', Hu, Hw. reflexivity.
Qed.

(** The two worked inputs of C1: core 15 with multiplier 255, and core 0
    with multiplier 8, on a kernel that grants the request. *)
Lemma C1_address_and_value_witness :
  (Zx.msr 15 = 0x1A8 /\ Zx.value 255 = 0x100FF /\
   Zx.set_cpu_multiplier 15 255 kernel_root [] =
     (Returned tt, [Iopl 3 0; Outl 0x1A8 0xCF8; Outl 0x100FF 0xCFC])) /\
  (Zx.msr 0 = 0x199 /\ Zx.value 8 = 0x10008 /\
   Zx.set_cpu_multiplier 0 8 kernel_root [] =
     (Returned tt, [Iopl 3 0; Outl 0x199 0xCF8; Outl 0x10008 0xCFC])).
Proof.
  split.
  - destruct (C1_address_and_value 15 255 kernel_root []
                ltac:(lia) ltac:(lia) ltac:(simpl; lia))
      as (Ha & Hv & _ & _ & Hrun & _).
    split; [exact Ha | split; [exact Hv | exact Hrun]].
  - destruct (C1_address_and_value 0 8 kernel_root []
                ltac:(lia) ltac:(lia) ltac:(simpl; lia))
      as (Ha & Hv & _ & _ & Hrun & _).
    split; [exact Ha | split; [exact Hv | exact Hrun]].
Defined.

(** C2.  In every call that returns, whichever body runs, the events of the
    call hold exactly two port writes, and the write of the register address
    to the index port 0xCF8 comes strictly before the write of the encoded
    value to the data port 0xCFC. *)
Theorem C2_index_before_data
  (e : engine) (core multiplier : Z) (os : kernel) (tr tr' : list event) :
  call e core multiplier os tr = (Returned tt, tr') ->
  exists evs : list event,
    tr' = tr ++ evs /\
    index_then_data (to_uint (msr_of e core)) (to_uint (value_of e multiplier)) evs /\
    port_writes evs = [(to_uint (msr_of e core), 0xCF8);
                       (to_uint (value_of e multiplier), 0xCFC)].
Proof.
  intros H. apply call_returned in H. destruct H as (_ & _ & ->).
  eexists. split; [reflexivity |]. split; [| reflexivity].
  exists 1%nat, 2%nat. repeat split; try reflexivity; try lia.
  intros k x p Hk.
  destruct k as [| [| [| k]]]; cbn in Hk; try discriminate; auto.
  destruct k; discriminate.
Qed.

(** C2 at core 15 and multiplier 255, on a kernel that grants the request. *)
Lemma C2_index_before_data_witness :
  exists evs : list event,
    [Iopl 3 0; Outl 0x1A8 0xCF8; Outl 0x100FF 0xCFC] = [] ++ evs /\
    index_then_data (to_uint (Zx.msr 15)) (to_uint (Zx.value 255)) evs /\
    port_writes evs = [(to_uint (Zx.msr 15), 0xCF8); (to_uint (Zx.value 255), 0xCFC)].
Proof.
  exact (C2_index_before_data ZxEngine 15 255 kernel_root [] _ eq_refl).
Defined.

(** C3.  If [iopl] fails, the call prints the [iopl] diagnostic and ends
    the process with status 1 without reaching either [outl]: the trace
    gains no port write.  This holds for [zx.c] and for the Linux body of
    [overclock.c]. *)
Theorem C3_no_write_without_privilege
  (core multiplier : Z) (os : kernel) (tr : list event) :
  sys_iopl os tr 3 < 0 ->
  Zx.set_cpu_multiplier core multiplier os tr =
    (Exited 1, tr ++ [Iopl 3 (sys_iopl os tr 3); Perror "iopl"]) /\
  Overclock.set_cpu_multiplier Linux core multiplier os tr =
    (Exited 1, tr ++ [Iopl 3 (sys_iopl os tr 3); Perror "iopl"]) /\
  port_writes (snd (Zx.set_cpu_multiplier core multiplier os tr)) = port_writes tr /\
  port_writes (snd (Overclock.set_cpu_multiplier Linux core multiplier os tr))
    = port_writes tr.
Proof.
  intros Hr. apply Z.ltb_lt in Hr.
  rewrite zx_run, overclock_linux_run. unfold engine_outcome, engine_events.
  rewrite Hr. cbn [snd]. autorewrite with trace.
  repeat split; reflexivity.
Qed.

(** C3 at core 15 and multiplier 255, on a kernel that refuses the request. *)
Lemma C3_no_write_without_privilege_witness :
  Zx.set_cpu_multiplier 15 255 kernel_user [] =
    (Exited 1, [Iopl 3 (-1); Perror "iopl"]) /\
  port_writes (snd (Zx.set_cpu_multiplier 15 255 kernel_user [])) = [].
Proof.
  destruct (C3_no_write_without_privilege 15 255 kernel_user [] ltac:(simpl; lia))
    as (Hrun & _ & Hw & _).
  split; [exact Hrun | exact Hw].
Defined.



(** C5 fails on the code.  The range test of [main] sees what [atoi] made
    of an argument, not the number the argument denotes.  The argument
    [4294967299] (2^32 + 3) is read as core 3, [4294967304] (2^32 + 8) as
    multiplier 8, and [-99999999999999999999] (clamped by [strtol], then cast
    to [int]) as core 0: each time [main] prints the confirmation line, runs
    the engine, writes both ports and returns 0, although the core or the
    multiplier written on the command line is outside its range.  So the
    CLI does not reject every out-of-range argument pair. *)
Theorem C5_out_of_range_arguments_accepted :
  Zx.main ["zx"; "4294967299"; "8"] kernel_root [] =
    (Returned 0,
     [confirmation_line 3 8; Iopl 3 0; Outl 0x19C 0xCF8; Outl 0x10008 0xCFC]) /\
  Zx.main ["zx"; "0"; "4294967304"] kernel_root [] =
    (Returned 0,
     [confirmation_line 0 8; Iopl 3 0; Outl 0x199 0xCF8; Outl 0x10008 0xCFC]) /\
  Zx.main ["zx"; "-99999999999999999999"; "8"] kernel_root [] =
    (Returned 0,
     [confirmation_line 0 8; Iopl 3 0; Outl 0x199 0xCF8; Outl 0x10008 0xCFC]) /\
  ~ cli_rejects_out_of_range_arguments.
Proof.
  split; [vm_compute; reflexivity |].
  split; [vm_compute; reflexivity |].
  split; [vm_compute; reflexivity |].
  intros H.
  assert (Hd1 : is_digits [4; 2; 9; 4; 9; 6; 7; 2; 9; 9])
    by (split; [discriminate | repeat constructor; lia]).
  assert (Hd2 : is_digits [8]) by (split; [discriminate | repeat constructor; lia]).
  specialize (H "zx" NoSign NoSign [4; 2; 9; 4; 9; 6; 7; 2; 9; 9] [8] kernel_root []
                Hd1 Hd2).
  cbv zeta in H.
  assert (Hout : signed NoSign (decimal_value [4; 2; 9; 4; 9; 6; 7; 2; 9; 9]) < 0 \/
                 15 < signed NoSign (decimal_value [4; 2; 9; 4; 9; 6; 7; 2; 9; 9]) \/
                 signed NoSign (decimal_value [8]) < 8 \/
                 255 < signed NoSign (decimal_value [8]))
    by (right; left; vm_compute; reflexivity).
  destruct (H Hout) as [Hstatus _]. apply Hstatus. vm_compute. reflexivity.
Qed.

(** C6.  Two successive calls with the same arguments that both return
    issue the same pair of port writes, the pair fixed by [core] and
    [multiplier] alone: whatever the kernel and the earlier trace. *)
Theorem C6_same_writes_twice
  (e : engine) (core multiplier : Z) (os : kernel) (tr tr1 tr2 : list event) :
  call e core multiplier os tr = (Returned tt, tr1) ->
  call e core multiplier os tr1 = (Returned tt, tr2) ->
  exists evs1 evs2 : list event,
    tr1 = tr ++ evs1 /\
    tr2 = tr1 ++ evs2 /\
    port_writes evs1 = [(to_uint (msr_of e core), 0xCF8);
                        (to_uint (value_of e multiplier), 0xCFC)] /\
    port_writes evs2 = port_writes evs1 /\
    fst ((call e core multiplier ;; call e core multiplier) os tr) = Returned tt /\
    snd ((call e core multiplier ;; call e core multiplier) os tr) = tr2.
Proof.
  intros H1 H2.
  assert (Hseq : (call e core multiplier ;; call e core multiplier) os tr
                 = (Returned tt, tr2)).
  { unfold bind. rewrite H1. exact H2. }
  apply call_returned in H1. destruct H1 as (_ & _ & ->).
  apply call_returned in H2. destruct H2 as (_ & _ & ->).
  do 2 eexists. split; [reflexivity |]. split; [reflexivity |].
  rewrite Hseq. repeat split; reflexivity.
Qed.

(** C6 at core 3 and multiplier 40, called twice on a kernel that grants the
    request. *)
Lemma C6_same_writes_twice_witness :
  exists evs1 evs2 : list event,
    [Iopl 3 0; Outl 0x19C 0xCF8; Outl 0x10028 0xCFC] = [] ++ evs1 /\
    [Iopl 3 0; Outl 0x19C 0xCF8; Outl 0x10028 0xCFC;
     Iopl 3 0; Outl 0x19C 0xCF8; Outl 0x10028 0xCFC]
      = [Iopl 3 0; Outl 0x19C 0xCF8; Outl 0x10028 0xCFC] ++ evs2 /\
    port_writes evs1 = [(to_uint (Zx.msr 3), 0xCF8); (to_uint (Zx.value 40), 0xCFC)] /\
    port_writes evs2 = port_writes evs1 /\
    fst ((Zx.set_cpu_multiplier 3 40 ;; Zx.set_cpu_multiplier 3 40) kernel_root [])
      = Returned tt /\
    snd ((Zx.set_cpu_multiplier 3 40 ;; Zx.set_cpu_multiplier 3 40) kernel_root [])
      = [Iopl 3 0; Outl 0x19C 0xCF8; Outl 0x10028 0xCFC;
         Iopl 3 0; Outl 0x19C 0xCF8; Outl 0x10028 0xCFC].
Proof.
  exact (C6_same_writes_twice ZxEngine 3 40 kernel_root [] _ _ eq_refl eq_refl).
Defined.

(** C7.  In the Windows build every call shows the message box and ends
    the process with [EXIT_FAILURE]; the trace gains no [iopl] request and
    no port write, whatever the arguments and the kernel. *)
Theorem C7_windows_rejects
  (core multiplier : Z) (os : kernel) (tr : list event) :
  Overclock.set_cpu_multiplier Win32 core multiplier os tr =
    (Exited EXIT_FAILURE,
     tr ++ [MessageBoxA "Direct I/O not supported in user mode." "Error"]) /\
  port_writes (snd (Overclock.set_cpu_multiplier Win32 core multiplier os tr))
    = port_writes tr /\
  iopl_calls (snd (Overclock.set_cpu_multiplier Win32 core multiplier os tr))
    = iopl_calls tr.
Proof.
  rewrite overclock_win32_run. cbn [snd]. autorewrite with trace.
  repeat split; reflexivity.
Qed.

(** C8.  For every integer multiplier the encoded value is
    [0x10000 + multiplier mod 256]: it lies between 0x10000 and 0x100FF, bit
    16 is set, the low byte is [multiplier mod 256], bits 8 to 15 are clear,
    and bit [i] is bit [i] of the multiplier below 8 and set only at 16 from
    there on.  The conversion to [outl]'s [unsigned int] keeps it. *)
Theorem C8_encoded_value_range (multiplier i : Z) :
  Zx.value multiplier = 0x10000 + multiplier mod 256 /\
  Overclock.value multiplier = 0x10000 + multiplier mod 256 /\
  0x10000 <= Zx.value multiplier <= 0x100FF /\
  Z.testbit (Zx.value multiplier) 16 = true /\
  Z.land (Zx.value multiplier) 0xFF = multiplier mod 256 /\
  Z.land (Z.shiftr (Zx.value multiplier) 8) 0xFF = 0 /\
  Z.testbit (Zx.value multiplier) i
    = (if i <? 8 then Z.testbit multiplier i else i =? 16) /\
  to_uint (Zx.value multiplier) = Zx.value multiplier.
Proof.
  pose proof (Z.mod_pos_bound multiplier 256 ltac:(lia)) as Hb.
  assert (Hbits : forall n,
             Z.testbit (Zx.value multiplier) n
             = (if n <? 8 then Z.testbit multiplier n else n =? 16)).
  { intros n. unfold Zx.value. rewrite to_ulong_small
      by (rewrite encode_sum; lia).
    rewrite Z.lor_spec, Z.land_spec.
    change 0xFF with (Z.ones 8). change 0x10000 with (2 ^ 16).
    rewrite Z.pow2_bits_eqb by lia. rewrite Z.testbit_ones by lia.
    destruct (Z.ltb_spec n 8) as [Hlt | Hge].
    - destruct (Z.leb_spec 0 n) as [Hn | Hn].
      + replace (16 =? n) with false by (symmetry; apply Z.eqb_neq; lia).
        cbn [andb]. now rewrite andb_true_r, orb_false_r.
      + rewrite (Z.testbit_neg_r multiplier n) by lia.
        replace (16 =? n) with false by (symmetry; apply Z.eqb_neq; lia).
        reflexivity.
    - rewrite andb_false_r, andb_false_r, orb_false_l. apply Z.eqb_sym. }
  rewrite zx_value_sum in *. rewrite overclock_value_sum.
  repeat split; try lia.
  - rewrite Hbits. reflexivity.
  - rewrite land_byte. symmetry. apply Z.mod_unique with (q := 256); lia.
  - rewrite land_byte, Z.shiftr_div_pow2 by lia.
    replace ((0x10000 + multiplier mod 256) / 2 ^ 8) with 256; [reflexivity |].
    apply Z.div_unique with (r := multiplier mod 256); lia.
  - apply Hbits.
  - apply to_uint_small. lia.
Qed.

(** C9.  [atoi] gives 0 for a non-numeric string [s].  As the core argument,
    [s] passes the range test: with a multiplier argument in range, [main]
    confirms core 0 and runs the engine on it.  As the multiplier argument,
    [s] is rejected, and with a core argument in range the one test that
    fires is [multi < 8]. *)
Theorem C9_non_numeric_is_zero
  (prog s core_arg multi_arg : string) (os : kernel) (tr : list event) :
  non_numeric s = true ->
  0 <= atoi core_arg <= 15 ->
  8 <= atoi multi_arg <= 255 ->
  atoi s = 0 /\
  Zx.main [prog; s; multi_arg] os tr =
    main_after_engine
      (Zx.set_cpu_multiplier 0 (atoi multi_arg) os
         (tr ++ [confirmation_line 0 (atoi multi_arg)])) /\
  Zx.main [prog; core_arg; s] os tr = (Returned 1, tr ++ [invalid_line]) /\
  (atoi core_arg <? 0) = false /\
  (atoi core_arg >? 15) = false /\
  (atoi s <? 8) = true /\
  (atoi s >? 255) = false.
Proof.
  intros Hs Hc Hm. pose proof (atoi_non_numeric s Hs) as H0.
  rewrite !main_three_args, H0.
  assert (Hc1 : (atoi core_arg <? 0) = false) by (apply Z.ltb_ge; lia).
  assert (Hc2 : (atoi core_arg >? 15) = false)
    by (rewrite Z.gtb_ltb; apply Z.ltb_ge; lia).
  assert (Hm1 : (atoi multi_arg <? 8) = false) by (apply Z.ltb_ge; lia).
  assert (Hm2 : (atoi multi_arg >? 255) = false)
    by (rewrite Z.gtb_ltb; apply Z.ltb_ge; lia).
  rewrite Hc1, Hc2, Hm1, Hm2.
  repeat split; reflexivity.
Qed.

(** C9 at the core argument ["abc"] and at the multiplier argument ["abc"]. *)
Lemma C9_non_numeric_is_zero_witness :
  atoi "abc" = 0 /\
  Zx.main ["zx"; "abc"; "8"] kernel_root [] =
    (Returned 0, [confirmation_line 0 8; Iopl 3 0; Outl 0x199 0xCF8; Outl 0x10008 0xCFC]) /\
  Zx.main ["zx"; "0"; "abc"] kernel_root [] = (Returned 1, [invalid_line]).
Proof.
  destruct (C9_non_numeric_is_zero "zx" "abc" "0" "8" kernel_root []
              eq_refl ltac:(vm_compute; split; discriminate)
              ltac:(vm_compute; split; discriminate))
    as (H0 & Hcore & Hmulti & _).
  split; [exact H0 | split; [exact Hcore | exact Hmulti]].
Defined.

(** C10.  The body of [zx.c] and the Linux body of [overclock.c] compute the
    same register address and encoded value and run to the same outcome and
    the same trace, from every kernel and every earlier trace. *)
Theorem C10_zx_equals_overclock_linux
  (core multiplier : Z) (os : kernel) (tr : list event) :
  Zx.msr core = Overclock.msr core /\
  Zx.value multiplier = Overclock.value multiplier /\
  Zx.set_cpu_multiplier core multiplier os tr
    = Overclock.set_cpu_multiplier Linux core multiplier os tr /\
  port_writes (snd (Zx.set_cpu_multiplier core multiplier os tr))
    = port_writes (snd (Overclock.set_cpu_multiplier Linux core multiplier os tr)).
Proof.
  assert (Ha : Zx.msr core = Overclock.msr core) by reflexivity.
  assert (Hv : Zx.value multiplier = Overclock.value multiplier) by reflexivity.
  assert (Hrun : Zx.set_cpu_multiplier core multiplier os tr
                 = Overclock.set_cpu_multiplier Linux core multiplier os tr).
  { rewrite zx_run, overclock_linux_run, Ha, Hv. reflexivity. }
  rewrite Hrun. repeat split; assumption.
Qed.

(** ** Further properties of the code *)

(** *** What reaches the index port *)

Lemma mod64_mod32 x : (x mod 2 ^ 64) mod 2 ^ 32 = x mod 2 ^ 32.
Proof.
  apply Z.mod_mod_divide. exists (2 ^ 32). reflexivity.
Qed.

(** The address [outl] receives is [0x199 + core] modulo 2^32. *)
Lemma address_written core : to_uint (Zx.msr core) = (0x199 + core) mod 2 ^ 32.
Proof.
  unfold to_uint, Zx.msr, to_ulong, int_add, to_int, wrap_unsigned, wrap_signed.
  unfold Zx.MSR_OC_BASE. rewrite mod64_mod32.
  change (2 ^ (32 - 1)) with (2 ^ 31).
  rewrite Zminus_mod_idemp_l. f_equal. lia.
Qed.

Lemma value_written multiplier :
  to_uint (Zx.value multiplier) = 0x10000 + multiplier mod 256.
Proof.
  rewrite zx_value_sum.
  pose proof (Z.mod_pos_bound multiplier 256 ltac:(lia)).
  apply to_uint_small. lia.
Qed.

Lemma to_int_range x : - 2 ^ 31 <= to_int x < 2 ^ 31.
Proof.
  unfold to_int, wrap_signed. change (2 ^ (32 - 1)) with (2 ^ 31).
  pose proof (Z.mod_pos_bound (x + 2 ^ 31) (2 ^ 32) ltac:(lia)).
  change (2 ^ 32) with (2 * 2 ^ 31) in *. lia.
Qed.

Lemma msr_of_zx e core : msr_of e core = Zx.msr core.
Proof. destruct e; reflexivity. Qed.

Lemma value_of_zx e multiplier : value_of e multiplier = Zx.value multiplier.
Proof. destruct e; reflexivity. Qed.

(** The port writes of a call that returns. *)
Lemma returned_writes e core multiplier os tr tr' :
  call e core multiplier os tr = (Returned tt, tr') ->
  port_writes tr' =
  port_writes tr ++ [((0x199 + core) mod 2 ^ 32, 0xCF8);
                     (0x10000 + multiplier mod 256, 0xCFC)].
Proof.
  intros H. apply call_returned in H. destruct H as (_ & _ & ->).
  rewrite msr_of_zx, value_of_zx, address_written, value_written.
  autorewrite with trace. reflexivity.
Qed.

(** X1.  The two port writes of a returning call determine its arguments:
    for a core that is a C [int], subtracting 0x199 from the address written
    to the index port and reading the result as an [int] gives the core back,
    and the value written to the data port minus 0x10000 is the multiplier
    modulo 256.  Distinct cores never share an address. *)
Theorem X1_writes_determine_arguments
  (e : engine) (core multiplier : Z) (os : kernel) (tr tr' : list event) :
  - 2 ^ 31 <= core < 2 ^ 31 ->
  call e core multiplier os tr = (Returned tt, tr') ->
  exists a v : Z,
    port_writes tr' = port_writes tr ++ [(a, 0xCF8); (v, 0xCFC)] /\
    to_int (a - 0x199) = core /\
    v - 0x10000 = multiplier mod 256.
Proof.
  intros Hc H. apply returned_writes in H.
  exists ((0x199 + core) mod 2 ^ 32), (0x10000 + multiplier mod 256).
  split; [exact H |]. split; [| lia].
  unfold to_int, wrap_signed. change (2 ^ (32 - 1)) with (2 ^ 31).
  replace ((0x199 + core) mod 2 ^ 32 - 0x199 + 2 ^ 31)
    with ((0x199 + core) mod 2 ^ 32 + (2 ^ 31 - 0x199)) by lia.
  rewrite Zplus_mod_idemp_l.
  replace (0x199 + core + (2 ^ 31 - 0x199)) with (core + 2 ^ 31) by lia.
  rewrite Z.mod_small; [lia |]. change (2 ^ 32) with (2 * 2 ^ 31). lia.
Qed.

(** X1 at core -1 (address 0x198) and multiplier 300 (low byte 44). *)
Lemma X1_writes_determine_arguments_witness :
  exists a v : Z,
    port_writes [Iopl 3 0; Outl 0x198 0xCF8; Outl 0x1002C 0xCFC]
      = port_writes [] ++ [(a, 0xCF8); (v, 0xCFC)] /\
    to_int (a - 0x199) = -1 /\
    v - 0x10000 = 300 mod 256.
Proof.
  exact (X1_writes_determine_arguments ZxEngine (-1) 300 kernel_root [] _
           ltac:(lia) eq_refl).
Defined.

(** X2.  The engine checks no range: every 32-bit register address is
    reachable.  For each [a] below 2^32 there is an [int] core with which a
    privileged call of a Linux body writes [a] to the index port, whatever
    the multiplier. *)
Theorem X2_every_address_reachable
  (e : engine) (a multiplier : Z) (os : kernel) (tr : list event) :
  e <> OverclockEngine Win32 ->
  0 <= a < 2 ^ 32 ->
  0 <= sys_iopl os tr 3 ->
  exists core : Z,
    - 2 ^ 31 <= core < 2 ^ 31 /\
    fst (call e core multiplier os tr) = Returned tt /\
    port_writes (snd (call e core multiplier os tr)) =
      port_writes tr ++ [(a, 0xCF8); (0x10000 + multiplier mod 256, 0xCFC)].
Proof.
  intros He Ha Hr. exists (to_int (a - 0x199)).
  split; [apply to_int_range |].
  assert (Hlt : (sys_iopl os tr 3 <? 0) = false) by (apply Z.ltb_ge; exact Hr).
  assert (Hrun : call e (to_int (a - 0x199)) multiplier os tr =
                 (Returned tt,
                  tr ++ [Iopl 3 (sys_iopl os tr 3);
                         Outl (to_uint (Zx.msr (to_int (a - 0x199)))) 0xCF8;
                         Outl (to_uint (Zx.value multiplier)) 0xCFC])).
  { destruct e as [| [|]]; cbn [call]; [| congruence |].
    - rewrite zx_run. unfold engine_outcome, engine_events. rewrite Hlt. reflexivity.
    - rewrite overclock_linux_run. unfold engine_outcome, engine_events.
      rewrite Hlt. reflexivity. }
  pose proof (returned_writes _ _ _ _ _ _ Hrun) as Hw.
  rewrite Hrun. cbn [fst snd]. split; [reflexivity |].
  rewrite Hw. do 3 f_equal.
  unfold to_int, wrap_signed. change (2 ^ (32 - 1)) with (2 ^ 31).
  replace (0x199 + ((a - 0x199 + 2 ^ 31) mod 2 ^ 32 - 2 ^ 31))
    with ((a - 0x199 + 2 ^ 31) mod 2 ^ 32 + (0x199 - 2 ^ 31)) by lia.
  rewrite Zplus_mod_idemp_l.
  replace (a - 0x199 + 2 ^ 31 + (0x199 - 2 ^ 31)) with a by lia.
  apply Z.mod_small. exact Ha.
Qed.

(** X2 at address 0: core -409 makes the engine write 0 to the index port. *)
Lemma X2_every_address_reachable_witness :
  exists core : Z,
    - 2 ^ 31 <= core < 2 ^ 31 /\
    fst (Zx.set_cpu_multiplier core 8 kernel_root []) = Returned tt /\
    port_writes (snd (Zx.set_cpu_multiplier core 8 kernel_root [])) =
      port_writes [] ++ [(0, 0xCF8); (0x10000 + 8 mod 256, 0xCFC)].
Proof.
  exact (X2_every_address_reachable ZxEngine 0 8 kernel_root []
           ltac:(discriminate) ltac:(lia) ltac:(simpl; lia)).
Defined.

(** X3.  The engine keeps only the low byte of the multiplier: two calls
    whose multipliers agree modulo 256 run identically (same outcome, same
    trace), in every body; and the encoded values of two multipliers are
    equal only when the multipliers agree modulo 256. *)
Theorem X3_multiplier_modulo_256
  (e : engine) (core m1 m2 : Z) (os : kernel) (tr : list event) :
  (m1 mod 256 = m2 mod 256 ->
   call e core m1 os tr = call e core m2 os tr) /\
  (value_of e m1 = value_of e m2 <-> m1 mod 256 = m2 mod 256).
Proof.
  assert (Hiff : value_of e m1 = value_of e m2 <-> m1 mod 256 = m2 mod 256).
  { rewrite !value_of_zx, !zx_value_sum. lia. }
  split; [| exact Hiff].
  intros H. apply Hiff in H. rewrite !value_of_zx in H.
  destruct e as [| [|]]; cbn [call].
  - rewrite !zx_run, H. reflexivity.
  - rewrite !overclock_win32_run. reflexivity.
  - rewrite !overclock_linux_run. change Overclock.value with Zx.value.
    rewrite H. reflexivity.
Qed.

(** X3 at multipliers 8 and 264. *)
Lemma X3_multiplier_modulo_256_witness :
  Zx.set_cpu_multiplier 0 8 kernel_root [] = Zx.set_cpu_multiplier 0 264 kernel_root [].
Proof.
  exact (proj1 (X3_multiplier_modulo_256 ZxEngine 0 8 264 kernel_root []) eq_refl).
Defined.

(** X4.  Privilege comes before port I/O.  The events of one call, whatever
    its outcome, hold at most one [iopl] request (level 3; none in the
    Windows body), and when they hold a port write, the first event is that
    request, the kernel granted it, and the call returned. *)
Theorem X4_privilege_before_io
  (e : engine) (core multiplier : Z) (os : kernel) (tr tr' : list event)
  (o : outcome unit) :
  call e core multiplier os tr = (o, tr') ->
  exists evs : list event,
    tr' = tr ++ evs /\
    iopl_calls evs = match e with
                     | OverclockEngine Win32 => []
                     | _ => [3]
                     end /\
    (port_writes evs <> [] ->
     exists rest : list event,
       evs = Iopl 3 (sys_iopl os tr 3) :: rest /\
       0 <= sys_iopl os tr 3 /\
       o = Returned tt).
Proof.
  destruct e as [| [|]]; cbn [call].
  - rewrite zx_run. unfold engine_outcome, engine_events.
    destruct (Z.ltb_spec (sys_iopl os tr 3) 0) as [Hlt | Hge];
      intros H; inversion H; subst; eexists; (split; [reflexivity |]);
      (split; [reflexivity |]); cbn; intros Hw.
    + congruence.
    + eexists. split; [reflexivity | split; [exact Hge | reflexivity]].
  - rewrite overclock_win32_run. intros H; inversion H; subst.
    eexists. split; [reflexivity |]. split; [reflexivity |]. cbn. congruence.
  - rewrite overclock_linux_run. unfold engine_outcome, engine_events.
    destruct (Z.ltb_spec (sys_iopl os tr 3) 0) as [Hlt | Hge];
      intros H; inversion H; subst; eexists; (split; [reflexivity |]);
      (split; [reflexivity |]); cbn; intros Hw.
    + congruence.
    + eexists. split; [reflexivity | split; [exact Hge | reflexivity]].
Qed.

(** X4 on a granted call of [zx.c] and on a refused one. *)
Lemma X4_privilege_before_io_witness :
  (exists evs : list event,
     [Iopl 3 0; Outl 0x199 0xCF8; Outl 0x10008 0xCFC] = [] ++ evs /\
     iopl_calls evs = [3] /\
     (port_writes evs <> [] ->
      exists rest : list event,
        evs = Iopl 3 0 :: rest /\ 0 <= 0 /\ Returned tt = Returned tt)) /\
  (exists evs : list event,
     [Iopl 3 (-1); Perror "iopl"] = [] ++ evs /\
     iopl_calls evs = [3] /\
     (port_writes evs <> [] ->
      exists rest : list event,
        evs = Iopl 3 (-1) :: rest /\ 0 <= -1 /\ Exited 1 = Returned tt)).
Proof.
  split.
  - exact (X4_privilege_before_io ZxEngine 0 8 kernel_root [] _ _ eq_refl).
  - exact (X4_privilege_before_io ZxEngine 0 8 kernel_user [] _ _ eq_refl).
Defined.

(** *** The command line, every path *)

(** [main] without exactly three arguments. *)
Lemma main_usage argv os tr :
  List.length argv <> 3%nat ->
  Zx.main argv os tr = (Returned 1, tr ++ [usage_line (nth_error argv 0)]).
Proof.
  intros H. unfold Zx.main. cbv zeta.
  destruct (Z.eqb_spec (Z.of_nat (List.length argv)) 3) as [Heq | Hne]; [lia |].
  reflexivity.
Qed.

Lemma three_args (argv : list string) :
  List.length argv = 3%nat -> exists prog a1 a2, argv = [prog; a1; a2].
Proof.
  destruct argv as [| prog [| a1 [| a2 [| x rest]]]]; try discriminate.
  intros _. now exists prog, a1, a2.
Qed.

Lemma range_test_false c m :
  (c <? 0) || (c >? 15) || (m <? 8) || (m >? 255) = false <->
  0 <= c <= 15 /\ 8 <= m <= 255.
Proof. rewrite !orb_false_iff, !Z.gtb_ltb, !Z.ltb_ge. lia. Qed.

(** [main] on three arguments that pass the range test, in closed form. *)
Lemma main_in_range prog a1 a2 os tr :
  0 <= atoi a1 <= 15 -> 8 <= atoi a2 <= 255 ->
  Zx.main [prog; a1; a2] os tr =
  let tr0 := tr ++ [confirmation_line (atoi a1) (atoi a2)] in
  let r := sys_iopl os tr0 3 in
  (if r <? 0 then Exited 1 else Returned 0,
   tr0 ++ (if r <? 0 then [Iopl 3 r; Perror "iopl"]
           else [Iopl 3 r; Outl (0x199 + atoi a1) 0xCF8;
                 Outl (0x10000 + atoi a2) 0xCFC])).
Proof.
  intros Hc Hm. rewrite main_three_args.
  rewrite (proj2 (range_test_false _ _) (conj Hc Hm)).
  rewrite zx_run. cbv zeta. unfold engine_outcome, engine_events.
  rewrite address_written, value_written.
  rewrite !Z.mod_small by lia.
  destruct (sys_iopl os _ 3 <? 0); reflexivity.
Qed.

(** X5.  Called with any number of arguments other than two ([argc] not 3),
    [main] prints the usage line with [argv[0]] (the null pointer when
    [argv] is empty), returns 1, and runs nothing of the engine: no [iopl]
    request, no port write.  The arguments are not even parsed. *)
Theorem X5_main_usage (argv : list string) (os : kernel) (tr : list event) :
  List.length argv <> 3%nat ->
  Zx.main argv os tr = (Returned 1, tr ++ [usage_line (nth_error argv 0)]) /\
  iopl_calls (snd (Zx.main argv os tr)) = iopl_calls tr /\
  port_writes (snd (Zx.main argv os tr)) = port_writes tr.
Proof.
  intros H. rewrite (main_usage argv os tr H). cbn [snd].
  autorewrite with trace. repeat split; reflexivity.
Qed.

(** X5 with one argument too few and with none at all. *)
Lemma X5_main_usage_witness :
  Zx.main ["zx"; "3"] kernel_root [] = (Returned 1, [usage_line (Some "zx")]) /\
  Zx.main [] kernel_root [] = (Returned 1, [usage_line None]).
Proof.
  split.
  - exact (proj1 (X5_main_usage ["zx"; "3"] kernel_root [] ltac:(discriminate))).
  - exact (proj1 (X5_main_usage [] kernel_root [] ltac:(discriminate))).
Defined.

(** X6.  The exit status of [main] is 0 or 1, and it is 0 exactly when there
    are three arguments, the parsed core is in [0,15], the parsed multiplier
    is in [8,255], and the kernel grants the [iopl] request made after the
    confirmation line. *)
Theorem X6_main_exit_status (argv : list string) (os : kernel) (tr : list event) :
  (exit_status (fst (Zx.main argv os tr)) = 0 \/
   exit_status (fst (Zx.main argv os tr)) = 1) /\
  (exit_status (fst (Zx.main argv os tr)) = 0 <->
   exists prog a1 a2 : string,
     argv = [prog; a1; a2] /\
     0 <= atoi a1 <= 15 /\
     8 <= atoi a2 <= 255 /\
     0 <= sys_iopl os (tr ++ [confirmation_line (atoi a1) (atoi a2)]) 3).
Proof.
  destruct (Nat.eq_dec (List.length argv) 3) as [H3 | Hn3].
  - destruct (three_args argv H3) as (prog & a1 & a2 & ->).
    destruct ((atoi a1 <? 0) || (atoi a1 >? 15) || (atoi a2 <? 8) || (atoi a2 >? 255))
      eqn:Hb.
    + rewrite main_three_args, Hb. cbn [fst exit_status].
      split; [right; reflexivity |]. split; [discriminate |].
      intros (p & b1 & b2 & Heq & Hc & Hm & _). inversion Heq; subst.
      rewrite (proj2 (range_test_false _ _) (conj Hc Hm)) in Hb. discriminate.
    + apply range_test_false in Hb. destruct Hb as [Hc Hm].
      rewrite (main_in_range prog a1 a2 os tr Hc Hm). cbv zeta. cbn [fst].
      destruct (Z.ltb_spec (sys_iopl os (tr ++ [confirmation_line (atoi a1) (atoi a2)]) 3) 0)
        as [Hlt | Hge]; cbn [exit_status].
      * split; [right; reflexivity |]. split; [discriminate |].
        intros (p & b1 & b2 & Heq & _ & _ & Hr). inversion Heq; subst. lia.
      * split; [left; reflexivity |]. split; [| reflexivity].
        intros _. exists prog, a1, a2. repeat split; try lia; exact Hge.
  - rewrite (main_usage argv os tr Hn3). cbn [fst exit_status].
    split; [right; reflexivity |]. split; [discriminate |].
    intros (p & b1 & b2 & -> & _). exfalso. apply Hn3. reflexivity.
Qed.

(** X7.  [main] applies a change entirely or not at all.  Either it returns
    0 and the trace gained exactly the two port writes [0x199 + c] to 0xCF8
    and [0x10000 + m] to 0xCFC for some [c] in [0,15] and [m] in [8,255], or
    it ends with status 1 and the trace gained no port write.  No address
    outside 0x199..0x1A8 and no value outside 0x10008..0x100FF ever reaches
    the hardware through [main]. *)
Theorem X7_main_writes_all_or_nothing
  (argv : list string) (os : kernel) (tr : list event) :
  (fst (Zx.main argv os tr) = Returned 0 /\
   exists c m : Z,
     0 <= c <= 15 /\ 8 <= m <= 255 /\
     port_writes (snd (Zx.main argv os tr)) =
       port_writes tr ++ [(0x199 + c, 0xCF8); (0x10000 + m, 0xCFC)]) \/
  (exit_status (fst (Zx.main argv os tr)) = 1 /\
   port_writes (snd (Zx.main argv os tr)) = port_writes tr).
Proof.
  destruct (Nat.eq_dec (List.length argv) 3) as [H3 | Hn3].
  - destruct (three_args argv H3) as (prog & a1 & a2 & ->).
    destruct ((atoi a1 <? 0) || (atoi a1 >? 15) || (atoi a2 <? 8) || (atoi a2 >? 255))
      eqn:Hb.
    + right. rewrite main_three_args, Hb. cbn [fst snd exit_status].
      autorewrite with trace. split; reflexivity.
    + apply range_test_false in Hb. destruct Hb as [Hc Hm].
      rewrite (main_in_range prog a1 a2 os tr Hc Hm). cbv zeta. cbn [fst snd].
      destruct (sys_iopl os (tr ++ [confirmation_line (atoi a1) (atoi a2)]) 3 <? 0).
      * right. autorewrite with trace. split; reflexivity.
      * left. split; [reflexivity |]. exists (atoi a1), (atoi a2).
        repeat split; try lia. autorewrite with trace. reflexivity.
  - right. rewrite (main_usage argv os tr Hn3). cbn [fst snd exit_status].
    autorewrite with trace. split; reflexivity.
Qed.

(** X8.  With arguments in range and a kernel that refuses [iopl], [main]
    has already printed the confirmation line when the engine fails: the
    trace gains the confirmation, the refused request and the [iopl]
    diagnostic, the process ends with status 1 inside the engine
    ([main] does not reach [return 0]), and no port is written. *)
Theorem X8_main_privilege_refused
  (prog a1 a2 : string) (os : kernel) (tr : list event) :
  0 <= atoi a1 <= 15 ->
  8 <= atoi a2 <= 255 ->
  sys_iopl os (tr ++ [confirmation_line (atoi a1) (atoi a2)]) 3 < 0 ->
  Zx.main [prog; a1; a2] os tr =
    (Exited 1,
     tr ++ [confirmation_line (atoi a1) (atoi a2);
            Iopl 3 (sys_iopl os (tr ++ [confirmation_line (atoi a1) (atoi a2)]) 3);
            Perror "iopl"]) /\
  port_writes (snd (Zx.main [prog; a1; a2] os tr)) = port_writes tr.
Proof.
  intros Hc Hm Hr. rewrite (main_in_range prog a1 a2 os tr Hc Hm). cbv zeta.
  apply Z.ltb_lt in Hr. rewrite Hr. cbn [snd]. rewrite <- app_assoc.
  autorewrite with trace. split; reflexivity.
Qed.

(** X8 at core 3 and multiplier 40 for a process without privilege. *)
Lemma X8_main_privilege_refused_witness :
  Zx.main ["zx"; "3"; "40"] kernel_user [] =
    (Exited 1, [confirmation_line 3 40; Iopl 3 (-1); Perror "iopl"]) /\
  port_writes (snd (Zx.main ["zx"; "3"; "40"] kernel_user [])) = [].
Proof.
  exact (X8_main_privilege_refused "zx" "3" "40" kernel_user []
           ltac:(vm_compute; split; discriminate)
           ltac:(vm_compute; split; discriminate)
           ltac:(vm_compute; reflexivity)).
Defined.

(** *** Reading the arguments *)

(** Case analysis on a decimal digit. *)
Ltac each_digit d H :=
  assert (d = 0 \/ d = 1 \/ d = 2 \/ d = 3 \/ d = 4 \/
          d = 5 \/ d = 6 \/ d = 7 \/ d = 8 \/ d = 9) as H by lia;
  repeat (destruct H as [H | H]; [subst d |]); [.. | subst d].

Lemma digit_char_facts d r :
  0 <= d <= 9 ->
  isdigit (digit_char d) = true /\
  digit_value (digit_char d) = d /\
  isspace (digit_char d) = false /\
  read_sign (String (digit_char d) r) = (false, String (digit_char d) r).
Proof.
  intros Hd. each_digit d H; repeat split; reflexivity.
Qed.

Lemma digits_numeral ds r :
  Forall (fun d => 0 <= d <= 9) ds ->
  stops_digits r = true ->
  forall acc, digits acc (numeral ds ++ r)%string
              = fold_left (fun a d => 10 * a + d) ds acc.
Proof.
  intros Hds Hr. induction Hds as [| d ds Hd _ IH]; intros acc.
  - cbn. destruct r as [| c r]; [reflexivity |]. cbn in *.
    destruct (isdigit c); [discriminate | reflexivity].
  - destruct (digit_char_facts d EmptyString Hd) as (Hi & Hv & _).
    cbn [numeral append digits fold_left]. rewrite Hi, Hv. apply IH.
Qed.

Lemma skip_space_all_space ws s :
  all_space ws = true -> skip_space (ws ++ s)%string = skip_space s.
Proof.
  induction ws as [| c ws IH]; [reflexivity |].
  cbn [all_space append skip_space]. intros H. apply andb_true_iff in H.
  destruct H as [Hc Hws]. rewrite Hc. apply IH, Hws.
Qed.

(** What [atoi] makes of an argument. *)
Lemma atoi_argument ws sg ds r :
  all_space ws = true -> is_digits ds -> stops_digits r = true ->
  atoi (argument ws sg ds r) = to_int (clamp_long (signed sg (decimal_value ds))).
Proof.
  intros Hws [Hne Hds] Hr. unfold atoi, strtol10, argument.
  rewrite skip_space_all_space by exact Hws.
  assert (Hparse : read_sign (skip_space (sign_string sg ++ numeral ds ++ r)%string)
                   = (match sg with MinusSign => true | _ => false end,
                      (numeral ds ++ r)%string)).
  { destruct sg; cbn [sign_string append]; try reflexivity.
    destruct ds as [| d ds]; [congruence |].
    inversion Hds as [| ? ? Hd _]; subst.
    destruct (digit_char_facts d (numeral ds ++ r)%string Hd) as (_ & _ & Hsp & Hsg).
    cbn [numeral append skip_space]. rewrite Hsp. exact Hsg. }
  rewrite Hparse. rewrite (digits_numeral ds r Hds Hr 0).
  destruct sg; reflexivity.
Qed.

(** An argument whose value is a C [int] parses to that value. *)
Lemma atoi_argument_int ws sg ds r :
  all_space ws = true -> is_digits ds -> stops_digits r = true ->
  - 2 ^ 31 <= signed sg (decimal_value ds) < 2 ^ 31 ->
  atoi (argument ws sg ds r) = signed sg (decimal_value ds).
Proof.
  intros Hws Hds Hr Hv. rewrite atoi_argument by assumption.
  assert (Hc : clamp_long (signed sg (decimal_value ds)) = signed sg (decimal_value ds)).
  { unfold clamp_long, LONG_MAX, LONG_MIN.
    destruct (Z.gtb_spec (signed sg (decimal_value ds)) (2 ^ 63 - 1)); [lia |].
    destruct (Z.ltb_spec (signed sg (decimal_value ds)) (- 2 ^ 63)); [lia |].
    reflexivity. }
  rewrite Hc. apply to_int_small. exact Hv.
Qed.

(** An argument whose value fits a [long] parses to that value modulo 2^32. *)
Lemma atoi_argument_wrap ws sg ds r c k :
  all_space ws = true -> is_digits ds -> stops_digits r = true ->
  signed sg (decimal_value ds) = c + 2 ^ 32 * k ->
  LONG_MIN <= signed sg (decimal_value ds) <= LONG_MAX ->
  - 2 ^ 31 <= c < 2 ^ 31 ->
  atoi (argument ws sg ds r) = c.
Proof.
  intros Hws Hds Hr Hv Hl Hc. rewrite atoi_argument by assumption.
  assert (Hcl : clamp_long (signed sg (decimal_value ds)) = c + 2 ^ 32 * k).
  { unfold clamp_long. unfold LONG_MAX, LONG_MIN in *.
    destruct (Z.gtb_spec (signed sg (decimal_value ds)) (2 ^ 63 - 1)); [lia |].
    destruct (Z.ltb_spec (signed sg (decimal_value ds)) (- 2 ^ 63)); [lia |].
    exact Hv. }
  rewrite Hcl. unfold to_int, wrap_signed. change (2 ^ (32 - 1)) with (2 ^ 31).
  replace (c + 2 ^ 32 * k + 2 ^ 31) with (c + 2 ^ 31 + k * 2 ^ 32) by lia.
  rewrite Z_mod_plus_full. rewrite Z.mod_small; [lia |].
  change (2 ^ 32) with (2 * 2 ^ 31). lia.
Qed.

(** X9.  End to end.  When the two arguments denote a core [c] in [0,15] and
    a multiplier [m] in [8,255] (leading white space, a sign, leading zeros
    and text after the digits are all accepted) and the kernel grants the
    request, [main] prints the confirmation for [c] and [m], writes
    [0x199 + c] to port 0xCF8 and then [0x10000 + m] to port 0xCFC, and
    returns 0. *)
Theorem X9_main_end_to_end
  (prog ws1 r1 ws2 r2 : string) (sg1 sg2 : sign) (ds1 ds2 : list Z)
  (os : kernel) (tr : list event) :
  let c := signed sg1 (decimal_value ds1) in
  let m := signed sg2 (decimal_value ds2) in
  all_space ws1 = true -> is_digits ds1 -> stops_digits r1 = true ->
  all_space ws2 = true -> is_digits ds2 -> stops_digits r2 = true ->
  0 <= c <= 15 ->
  8 <= m <= 255 ->
  0 <= sys_iopl os (tr ++ [confirmation_line c m]) 3 ->
  Zx.main [prog; argument ws1 sg1 ds1 r1; argument ws2 sg2 ds2 r2] os tr =
    (Returned 0,
     tr ++ [confirmation_line c m;
            Iopl 3 (sys_iopl os (tr ++ [confirmation_line c m]) 3);
            Outl (0x199 + c) 0xCF8;
            Outl (0x10000 + m) 0xCFC]).
Proof.
  intros c m Hw1 Hd1 Hr1 Hw2 Hd2 Hr2 Hc Hm Hk.
  assert (H1 : atoi (argument ws1 sg1 ds1 r1) = c)
    by (apply atoi_argument_int; try assumption; fold c; lia).
  assert (H2 : atoi (argument ws2 sg2 ds2 r2) = m)
    by (apply atoi_argument_int; try assumption; fold m; lia).
  rewrite main_in_range by (rewrite ?H1, ?H2; assumption).
  cbv zeta. rewrite H1, H2.
  apply Z.ltb_ge in Hk. rewrite Hk. rewrite <- app_assoc. reflexivity.
Qed.

(** X9 on the arguments [" 007"] and ["+40x"]: core 7, multiplier 40. *)
Lemma X9_main_end_to_end_witness :
  Zx.main ["zx"; " 007"; "+40x"] kernel_root [] =
    (Returned 0,
     [confirmation_line 7 40; Iopl 3 0; Outl 0x1A0 0xCF8; Outl 0x10028 0xCFC]).
Proof.
  assert (Hd1 : is_digits [0; 0; 7]) by (split; [discriminate | repeat constructor; lia]).
  assert (Hd2 : is_digits [4; 0]) by (split; [discriminate | repeat constructor; lia]).
  pose proof (X9_main_end_to_end "zx" " " EmptyString EmptyString "x" NoSign PlusSign
                [0; 0; 7] [4; 0] kernel_root []) as H.
  cbv zeta in H. specialize (H eq_refl Hd1 eq_refl eq_refl Hd2 eq_refl).
  assert (Hc : 0 <= signed NoSign (decimal_value [0; 0; 7]) <= 15)
    by (vm_compute; split; discriminate).
  assert (Hm : 8 <= signed PlusSign (decimal_value [4; 0]) <= 255)
    by (vm_compute; split; discriminate).
  specialize (H Hc Hm ltac:(vm_compute; discriminate)).
  vm_compute in H. vm_compute. exact H.
Defined.

(** X10.  An argument pair whose values are C [int]s and of which the core
    is outside [0,15] or the multiplier outside [8,255] (negative numbers
    included) is rejected: [main] prints the rejection line, returns 1 and
    runs nothing of the engine.  Within the [int] range the range test sees
    the number the argument denotes. *)
Theorem X10_main_rejects_by_value
  (prog ws1 r1 ws2 r2 : string) (sg1 sg2 : sign) (ds1 ds2 : list Z)
  (os : kernel) (tr : list event) :
  let c := signed sg1 (decimal_value ds1) in
  let m := signed sg2 (decimal_value ds2) in
  all_space ws1 = true -> is_digits ds1 -> stops_digits r1 = true ->
  all_space ws2 = true -> is_digits ds2 -> stops_digits r2 = true ->
  - 2 ^ 31 <= c < 2 ^ 31 ->
  - 2 ^ 31 <= m < 2 ^ 31 ->
  c < 0 \/ 15 < c \/ m < 8 \/ 255 < m ->
  Zx.main [prog; argument ws1 sg1 ds1 r1; argument ws2 sg2 ds2 r2] os tr =
    (Returned 1, tr ++ [invalid_line]).
Proof.
  intros c m Hw1 Hd1 Hr1 Hw2 Hd2 Hr2 Hc Hm Hout.
  assert (H1 : atoi (argument ws1 sg1 ds1 r1) = c)
    by (apply atoi_argument_int; assumption).
  assert (H2 : atoi (argument ws2 sg2 ds2 r2) = m)
    by (apply atoi_argument_int; assumption).
  rewrite main_three_args, H1, H2.
  destruct ((c <? 0) || (c >? 15) || (m <? 8) || (m >? 255)) eqn:Hb; [reflexivity |].
  apply range_test_false in Hb. lia.
Qed.

(** X10 on the arguments ["-1"] and ["40"]. *)
Lemma X10_main_rejects_by_value_witness :
  Zx.main ["zx"; "-1"; "40"] kernel_root [] = (Returned 1, [invalid_line]).
Proof.
  assert (Hd1 : is_digits [1]) by (split; [discriminate | repeat constructor; lia]).
  assert (Hd2 : is_digits [4; 0]) by (split; [discriminate | repeat constructor; lia]).
  pose proof (X10_main_rejects_by_value "zx" EmptyString EmptyString EmptyString
                EmptyString MinusSign NoSign [1] [4; 0] kernel_root []) as H.
  cbv zeta in H. specialize (H eq_refl Hd1 eq_refl eq_refl Hd2 eq_refl).
  assert (Hc : - 2 ^ 31 <= signed MinusSign (decimal_value [1]) < 2 ^ 31)
    by (vm_compute; split; [discriminate | reflexivity]).
  assert (Hm : - 2 ^ 31 <= signed NoSign (decimal_value [4; 0]) < 2 ^ 31)
    by (vm_compute; split; [discriminate | reflexivity]).
  specialize (H Hc Hm ltac:(left; vm_compute; reflexivity)).
  vm_compute in H. vm_compute. exact H.
Defined.

(** X11.  Beyond the [int] range the range test sees the argument modulo
    2^32.  With glibc's [atoi] on x86-64 ([strtol] then a cast to [int]), an
    argument whose value fits a [long] and is [c + 2^32 * k] is read as [c]:
    when [c] is in [0,15] and the multiplier argument is read as [m] in
    [8,255] in the same way, [main] accepts the pair and runs the engine on
    [c] and [m], although the numbers written on the command line are out of
    range. *)
Theorem X11_main_accepts_modulo_2_32
  (prog ws1 r1 ws2 r2 : string) (sg1 sg2 : sign) (ds1 ds2 : list Z)
  (c m k1 k2 : Z) (os : kernel) (tr : list event) :
  all_space ws1 = true -> is_digits ds1 -> stops_digits r1 = true ->
  all_space ws2 = true -> is_digits ds2 -> stops_digits r2 = true ->
  signed sg1 (decimal_value ds1) = c + 2 ^ 32 * k1 ->
  signed sg2 (decimal_value ds2) = m + 2 ^ 32 * k2 ->
  LONG_MIN <= signed sg1 (decimal_value ds1) <= LONG_MAX ->
  LONG_MIN <= signed sg2 (decimal_value ds2) <= LONG_MAX ->
  0 <= c <= 15 ->
  8 <= m <= 255 ->
  Zx.main [prog; argument ws1 sg1 ds1 r1; argument ws2 sg2 ds2 r2] os tr =
    main_after_engine
      (Zx.set_cpu_multiplier c m os (tr ++ [confirmation_line c m])).
Proof.
  intros Hw1 Hd1 Hr1 Hw2 Hd2 Hr2 Hv1 Hv2 Hl1 Hl2 Hc Hm.
  assert (H1 : atoi (argument ws1 sg1 ds1 r1) = c)
    by (apply atoi_argument_wrap with (k := k1); try assumption; lia).
  assert (H2 : atoi (argument ws2 sg2 ds2 r2) = m)
    by (apply atoi_argument_wrap with (k := k2); try assumption; lia).
  rewrite main_three_args, H1, H2.
  rewrite (proj2 (range_test_false c m) (conj Hc Hm)). reflexivity.
Qed.

(** X11 on the arguments ["4294967299"] (3 + 2^32) and ["-4294967256"]
    (40 - 2^32): [main] sets core 3 to multiplier 40. *)
Lemma X11_main_accepts_modulo_2_32_witness :
  Zx.main ["zx"; "4294967299"; "-4294967256"] kernel_root [] =
    (Returned 0,
     [confirmation_line 3 40; Iopl 3 0; Outl 0x19C 0xCF8; Outl 0x10028 0xCFC]).
Proof.
  assert (Hd1 : is_digits [4; 2; 9; 4; 9; 6; 7; 2; 9; 9])
    by (split; [discriminate | repeat constructor; lia]).
  assert (Hd2 : is_digits [4; 2; 9; 4; 9; 6; 7; 2; 5; 6])
    by (split; [discriminate | repeat constructor; lia]).
  pose proof (X11_main_accepts_modulo_2_32 "zx" EmptyString EmptyString EmptyString
                EmptyString NoSign MinusSign
                [4; 2; 9; 4; 9; 6; 7; 2; 9; 9] [4; 2; 9; 4; 9; 6; 7; 2; 5; 6]
                3 40 1 (-1) kernel_root []) as H.
  specialize (H eq_refl Hd1 eq_refl eq_refl Hd2 eq_refl eq_refl eq_refl).
  assert (Hl1 : LONG_MIN <= signed NoSign (decimal_value [4; 2; 9; 4; 9; 6; 7; 2; 9; 9])
                <= LONG_MAX) by (vm_compute; split; discriminate).
  assert (Hl2 : LONG_MIN <= signed MinusSign (decimal_value [4; 2; 9; 4; 9; 6; 7; 2; 5; 6])
                <= LONG_MAX) by (vm_compute; split; discriminate).
  specialize (H Hl1 Hl2 ltac:(lia) ltac:(lia)).
  vm_compute in H. vm_compute. exact H.
Defined.

(** *** The range guard, on what [atoi] returns *)

(** X12.  When the parsed core is outside [0,15] or the parsed multiplier is
    outside [8,255], [main] prints the rejection line and returns 1 with no
    event of the engine in the trace: no [iopl], no port write.  When both
    are in range, [main] first prints the confirmation line and only then
    runs the engine. *)
Theorem X12_range_guard_on_parsed_values (prog a1 a2 : string) (os : kernel) (tr : list event) :
  ((atoi a1 < 0 \/ 15 < atoi a1 \/ atoi a2 < 8 \/ 255 < atoi a2) ->
   Zx.main [prog; a1; a2] os tr = (Returned 1, tr ++ [invalid_line]) /\
   exit_status (fst (Zx.main [prog; a1; a2] os tr)) <> 0 /\
   iopl_calls (snd (Zx.main [prog; a1; a2] os tr)) = iopl_calls tr /\
   port_writes (snd (Zx.main [prog; a1; a2] os tr)) = port_writes tr) /\
  ((0 <= atoi a1 <= 15 /\ 8 <= atoi a2 <= 255) ->
   Zx.main [prog; a1; a2] os tr =
     main_after_engine
       (Zx.set_cpu_multiplier (atoi a1) (atoi a2) os
          (tr ++ [confirmation_line (atoi a1) (atoi a2)]))).
Proof.
  rewrite main_three_args. split.
  - intros H.
    assert (Hb : (atoi a1 <? 0) || (atoi a1 >? 15) || (atoi a2 <? 8) || (atoi a2 >? 255)
                 = true).
    { rewrite !orb_true_iff, !Z.ltb_lt, !Z.gtb_lt. lia. }
    rewrite Hb. cbn [fst snd exit_status]. autorewrite with trace.
    repeat split; try reflexivity. discriminate.
  - intros H.
    assert (Hb : (atoi a1 <? 0) || (atoi a1 >? 15) || (atoi a2 <? 8) || (atoi a2 >? 255)
                 = false).
    { rewrite !orb_false_iff, !Z.ltb_ge, !Z.gtb_ltb, !Z.ltb_ge. lia. }
    rewrite Hb. reflexivity.
Qed.

(** X12 at core 16, at multiplier 7, and at the in-range pair (0, 8). *)
Lemma X12_range_guard_on_parsed_values_witness :
  Zx.main ["zx"; "16"; "8"] kernel_root [] = (Returned 1, [invalid_line]) /\
  Zx.main ["zx"; "0"; "7"] kernel_root [] = (Returned 1, [invalid_line]) /\
  Zx.main ["zx"; "0"; "8"] kernel_root [] =
    (Returned 0, [confirmation_line 0 8; Iopl 3 0; Outl 0x199 0xCF8; Outl 0x10008 0xCFC]).
Proof.
  split; [| split].
  - exact (proj1 (proj1 (X12_range_guard_on_parsed_values "zx" "16" "8" kernel_root [])
                    ltac:(vm_compute; right; left; reflexivity))).
  - exact (proj1 (proj1 (X12_range_guard_on_parsed_values "zx" "0" "7" kernel_root [])
                    ltac:(vm_compute; right; right; left; reflexivity))).
  - exact (proj2 (X12_range_guard_on_parsed_values "zx" "0" "8" kernel_root [])
             ltac:(vm_compute; repeat split; discriminate)).
Defined.
